(** * Audio-Converter: a shallow embedding of [audio-converter.py]

    The program validates a format token, resolves an output path from the
    input path, the requested format and an optional output argument, creates
    the destination directory and delegates the conversion to pydub/FFmpeg.

    Modelling choices.
    - A Python [str] is a Rocq [string]; [str.lower] acts on the ASCII letters.
      The only code points outside ASCII whose lower-case form contains an
      ASCII letter yield [k] or [i], and no supported format holds either, so
      membership in the supported set is decided by the ASCII part alone.
    - [os.path] is [posixpath] (separator [/]), the flavour in which the
      paths of the specification are written; [main] replaces every backslash
      by a slash before any path logic runs.
    - The file system, the FFmpeg probe, [os.makedirs], pydub and [argparse]
      are collaborators outside the repository: their answers are the fields
      of an environment record [Env], and every call with an effect is
      recorded, in order, in a trace of events.
    - An exception is a value of type [exn] (a subclass of Python's
      [Exception]); a computation is a pair of an outcome (a value or a raised
      exception) and the trace it produced. [print] does not raise.
    - The program reads the file system ([os.path.exists], [isfile],
      [isdir]) only before it changes it, so the answers of one run are
      functions of the path. *)

From Stdlib Require Import String Ascii List ZArith Bool Lia.
Import ListNotations.

Open Scope string_scope.
Open Scope Z_scope.

(** ** Python strings *)

Module Py.

(** [if s:] on a string. *)
Definition truthy (s : string) : bool := negb (s =? "")%string.

(** [if o:] on an optional string ([None] and the empty string are falsy). *)
Definition truthy_opt (o : option string) : bool :=
  match o with
  | None => false
  | Some s => truthy s
  end.

Definition is_upper (c : ascii) : bool :=
  let n := nat_of_ascii c in (65 <=? n)%nat && (n <=? 90)%nat.

Definition is_lower (c : ascii) : bool :=
  let n := nat_of_ascii c in (97 <=? n)%nat && (n <=? 122)%nat.

Definition lower_char (c : ascii) : ascii :=
  if is_upper c then ascii_of_nat (nat_of_ascii c + 32) else c.

Definition upper_char (c : ascii) : ascii :=
  if is_lower c then ascii_of_nat (nat_of_ascii c - 32) else c.

(** [s.lower()] *)
Fixpoint lower (s : string) : string :=
  match s with
  | EmptyString => EmptyString
  | String c t => String (lower_char c) (lower t)
  end.

(** [s.upper()] *)
Fixpoint upper (s : string) : string :=
  match s with
  | EmptyString => EmptyString
  | String c t => String (upper_char c) (upper t)
  end.

(** [len(s)] *)
Definition len (s : string) : Z := Z.of_nat (String.length s).

(** [s.rfind(c)] for a one-character [c]: the highest index of [c], or [-1]. *)
Fixpoint rfind (c : ascii) (s : string) : Z :=
  match s with
  | EmptyString => -1
  | String a t =>
      let r := rfind c t in
      if r <? 0 then (if Ascii.eqb a c then 0 else -1) else r + 1
  end.

Fixpoint take (n : nat) (s : string) : string :=
  match n, s with
  | O, _ => EmptyString
  | S _, EmptyString => EmptyString
  | S n', String a t => String a (take n' t)
  end.

Fixpoint drop (n : nat) (s : string) : string :=
  match n, s with
  | O, _ => s
  | S _, EmptyString => EmptyString
  | S n', String _ t => drop n' t
  end.

(** A slice bound as Python clamps it: negative bounds count from the end. *)
Definition clamp (i : Z) (s : string) : nat :=
  Z.to_nat (if i <? 0 then Z.max 0 (len s + i) else Z.min i (len s)).

(** [s[:i]] *)
Definition slice_to (i : Z) (s : string) : string := take (clamp i s) s.

(** [s[i:]] *)
Definition slice_from (i : Z) (s : string) : string := drop (clamp i s) s.

(** [s[i:i+1]] for [0 <= i]: the character at [i] as a string, or [""]. *)
Definition char_at (i : Z) (s : string) : string :=
  take 1 (slice_from i s).

(** [s.rstrip(c)] for a one-character [c]. *)
Fixpoint rstrip (c : ascii) (s : string) : string :=
  match s with
  | EmptyString => EmptyString
  | String a t =>
      let t' := rstrip c t in
      if (t' =? "")%string && Ascii.eqb a c then EmptyString else String a t'
  end.

(** [c * n] for a one-character [c]. *)
Fixpoint repeat_char (c : ascii) (n : nat) : string :=
  match n with
  | O => EmptyString
  | S n' => String c (repeat_char c n')
  end.

(** [s.startswith(c)] and [s.endswith(c)] for a one-character [c]. *)
Definition startswith (c : ascii) (s : string) : bool :=
  match s with
  | String a _ => Ascii.eqb a c
  | EmptyString => false
  end.

Fixpoint endswith (c : ascii) (s : string) : bool :=
  match s with
  | EmptyString => false
  | String a EmptyString => Ascii.eqb a c
  | String _ t => endswith c t
  end.

(** [s.replace(a, b)] for one-character [a] and [b]. *)
Fixpoint replace_char (a b : ascii) (s : string) : string :=
  match s with
  | EmptyString => EmptyString
  | String c t => String (if Ascii.eqb c a then b else c) (replace_char a b t)
  end.

(** [x in l] on a list of strings. *)
Definition contains (x : string) (l : list string) : bool :=
  existsb (String.eqb x) l.

End Py.

(** ** [posixpath] *)

Module PosixPath.

Definition sep : ascii := "/"%char.
Definition extsep : ascii := "."%char.

(** [os.path.basename] *)
Definition basename (p : string) : string :=
  let i := Py.rfind sep p + 1 in
  Py.slice_from i p.

(** [os.path.dirname] *)
Definition dirname (p : string) : string :=
  let i := Py.rfind sep p + 1 in
  let head := Py.slice_to i p in
  if Py.truthy head
     && negb (head =? Py.repeat_char sep (String.length head))%string
  then Py.rstrip sep head
  else head.

(** The loop of [genericpath._splitext] that skips the leading dots of the
    file name: [true] when a character other than the dot stands in
    [filenameIndex .. filenameIndex + n - 1]. *)
Fixpoint has_name_before_dot (p : string) (filenameIndex : Z) (n : nat) : bool :=
  match n with
  | O => false
  | S n' =>
      if negb (Py.char_at filenameIndex p =? String extsep "")%string
      then true
      else has_name_before_dot p (filenameIndex + 1) n'
  end.

(** [os.path.splitext] *)
Definition splitext (p : string) : string * string :=
  let sepIndex := Py.rfind sep p in
  let dotIndex := Py.rfind extsep p in
  if (dotIndex >? sepIndex)
     && has_name_before_dot p (sepIndex + 1) (Z.to_nat (dotIndex - (sepIndex + 1)))
  then (Py.slice_to dotIndex p, Py.slice_from dotIndex p)
  else (p, Py.slice_to 0 p).

(** [os.path.join(a, b)] *)
Definition join (a b : string) : string :=
  if Py.startswith sep b then b
  else if negb (Py.truthy a) || Py.endswith sep a then a ++ b
  else a ++ String sep "" ++ b.

End PosixPath.

(** ** Exceptions, effects and the environment *)

(** The exception classes the program tells apart, and a catch-all carrying
    the class name. *)
Inductive exn_class : Type :=
  | CalledProcessError
  | TimeoutExpired
  | SubprocessError
  | FileNotFoundError
  | FileExistsError
  | PermissionError
  | OSError
  | OtherException (name : string).

(** An exception: its class and [str(e)]. *)
Record exn : Type := mk_exn { exn_type : exn_class; exn_str : string }.

(** [type(e).__name__] *)
Definition type_name (e : exn) : string :=
  match exn_type e with
  | CalledProcessError => "CalledProcessError"
  | TimeoutExpired => "TimeoutExpired"
  | SubprocessError => "SubprocessError"
  | FileNotFoundError => "FileNotFoundError"
  | FileExistsError => "FileExistsError"
  | PermissionError => "PermissionError"
  | OSError => "OSError"
  | OtherException name => name
  end.

(** [isinstance(e, subprocess.SubprocessError)] *)
Definition is_SubprocessError (e : exn) : bool :=
  match exn_type e with
  | CalledProcessError | TimeoutExpired | SubprocessError => true
  | _ => false
  end.

(** [isinstance(e, FileNotFoundError)] *)
Definition is_FileNotFoundError (e : exn) : bool :=
  match exn_type e with
  | FileNotFoundError => true
  | _ => false
  end.

(** What [parser.parse_args()] does with the command line: it returns the
    namespace [(input, output_format, output)], or prints and leaves the
    process with a status of its own (a usage error, a request for help). *)
Inductive parse_outcome : Type :=
  | Parsed (input output_format : string) (output : option string)
  | ParserExit (status : Z).

(** The calls with an effect, as the trace records them. *)
Inductive event : Type :=
  | EvFfmpegVersion                          (* subprocess.run(['ffmpeg', '-version'], ...) *)
  | EvMakedirs (output_dir : string)         (* os.makedirs(output_dir, exist_ok=True) *)
  | EvFromFile (input_file : string)         (* AudioSegment.from_file(input_file) *)
  | EvExport (input_file output_file format : string)
                                             (* audio.export(output_file, format=...) *)
  | EvPrint (line : string)                  (* print(line) *)
  | EvPrintHelp                              (* parser.print_help() *)
  | EvParseArgs (argv : list string)         (* parser.parse_args() *)
  | EvTraceback (e : exn).                   (* an exception that reaches the top level *)

(** The collaborators of one run. *)
Record Env : Type := mk_env {
  (** [subprocess.run(['ffmpeg', '-version'], ..., check=True)]: [None] when
      the probe runs and exits with status 0, the exception otherwise. *)
  ffmpeg_version : option exn;
  (** [os.path.exists], [os.path.isfile], [os.path.isdir] *)
  os_path_exists : string -> bool;
  os_path_isfile : string -> bool;
  os_path_isdir : string -> bool;
  (** [os.mkdir] of a directory, after its missing parents: [None] when it
      is created, the [OSError] otherwise ([FileExistsError] when the path is
      already there). *)
  os_mkdir : string -> option exn;
  (** [AudioSegment.from_file(input_file)]: [None] when the audio is loaded. *)
  from_file : string -> option exn;
  (** [audio.export(output_file, format=output_format)] on the audio loaded
      from [input_file]: [None] when the file is written. *)
  export : string -> string -> string -> option exn;
  (** [parser.parse_args()] on [sys.argv]. *)
  parse_args : list string -> parse_outcome
}.

(** The outcome of a computation: a value, or a raised exception. *)
Inductive outcome (A : Type) : Type :=
  | Ret (a : A)
  | Raise (e : exn).

Arguments Ret {A} a.
Arguments Raise {A} e.

(** A computation: its outcome and the events it produced, in order. *)
Definition M (A : Type) : Type := outcome A * list event.

Definition ret {A : Type} (a : A) : M A := (Ret a, []).

Definition raise {A : Type} (e : exn) : M A := (Raise e, []).

Definition bind {A B : Type} (m : M A) (f : A -> M B) : M B :=
  match m with
  | (Ret a, t) => let (r, t') := f a in (r, (t ++ t')%list)
  | (Raise e, t) => (Raise e, t)
  end.

(** [try: m  except Exception as e: h e] *)
Definition try_except {A : Type} (m : M A) (h : exn -> M A) : M A :=
  match m with
  | (Ret a, t) => (Ret a, t)
  | (Raise e, t) => let (r, t') := h e in (r, (t ++ t')%list)
  end.

(** [try: m  except (C1, C2): h]: only the exceptions that [catches] accepts
    are handled, the others go on. *)
Definition try_except_only {A : Type} (catches : exn -> bool) (m : M A) (h : M A) : M A :=
  try_except m (fun e => if catches e then h else raise e).

Definition emit (ev : event) : M unit := (Ret tt, [ev]).

(** An effectful call whose failure is an exception. *)
Definition call (ev : event) (r : option exn) : M unit :=
  match r with
  | None => (Ret tt, [ev])
  | Some e => (Raise e, [ev])
  end.

Definition print (line : string) : M unit := emit (EvPrint line).

Notation "x <- m ;; k" := (bind m (fun x => k))
  (at level 100, m at next level, right associativity).
Notation "m ;;; k" := (bind m (fun _ => k))
  (at level 100, right associativity).

(** [os.makedirs(name, exist_ok=exist_ok)], as the standard library ends it:
    [try: mkdir(name)  except OSError: if not exist_ok or not
    path.isdir(name): raise]. *)
Definition os_makedirs (env : Env) (name : string) (exist_ok : bool) : option exn :=
  match os_mkdir env name with
  | None => None
  | Some e =>
      if negb exist_ok || negb (os_path_isdir env name) then Some e else None
  end.

(** ** The program *)

Definition nl : string := String (ascii_of_nat 10) "".

(** The guidance [check_ffmpeg] prints when FFmpeg is not found. *)
Definition ffmpeg_not_found_message : string :=
  "FFmpeg not found. Please ensure ffmpeg.exe is:" ++ nl
  ++ "1. Added to system PATH, or" ++ nl
  ++ "2. Placed in the same directory as this script" ++ nl
  ++ "Download FFmpeg from: https://github.com/BtbN/FFmpeg-Builds/releases".

(** [check_ffmpeg()] *)
Definition check_ffmpeg (env : Env) : M bool :=
  try_except_only
    (fun e => is_SubprocessError e || is_FileNotFoundError e)
    (call EvFfmpegVersion (ffmpeg_version env) ;;;
     ret true)
    (if os_path_exists env "ffmpeg.exe" then ret true
     else
       print ffmpeg_not_found_message ;;;
       ret false).

(** [get_supported_formats()] *)
Definition get_supported_formats : list string :=
  ["mp3"; "wav"; "ogg"; "m4a"; "flac"; "aac"; "wma"].

(** [validate_format(format_str)] *)
Definition validate_format (format_str : string) : bool :=
  Py.contains (Py.lower format_str) get_supported_formats.

(** The original file name without its extension (line 69 of
    [convert_audio]). *)
Definition original_filename (input_file : string) : string :=
  fst (PosixPath.splitext (PosixPath.basename input_file)).

(** The [# Handle output path] block of [convert_audio] (lines 71 to 82): the
    value of [output_file] after it. *)
Definition handle_output_path (env : Env) (input_file output_format : string)
    (output_file : option string) : string :=
  match output_file with
  | Some out =>
      if negb (Py.truthy out) then
        original_filename input_file ++ "." ++ output_format
      else if os_path_isdir env out then
        PosixPath.join out (original_filename input_file ++ "." ++ output_format)
      else
        let output_dir := PosixPath.dirname out in
        if Py.truthy output_dir then
          PosixPath.join output_dir (original_filename input_file ++ "." ++ output_format)
        else out
  | None => original_filename input_file ++ "." ++ output_format
  end.

(** The [# Create output directory] block (lines 85 to 92): [Some false] when
    the function returns [False] from the handler, [None] when control goes on
    to the conversion. *)
Definition create_output_directory (env : Env) (output_file : string) : M (option bool) :=
  let output_dir := PosixPath.dirname output_file in
  if Py.truthy output_dir then
    try_except
      (call (EvMakedirs output_dir) (os_makedirs env output_dir true) ;;;
       print ("Created/verified directory: " ++ output_dir) ;;;
       ret None)
      (fun e =>
         print ("Error creating directory " ++ output_dir ++ ": " ++ exn_str e) ;;;
         ret (Some false))
  else ret None.

(** The [# Load and convert audio] block (lines 104 to 117). *)
Definition load_and_convert (env : Env) (input_file output_format output_file : string)
    : M bool :=
  try_except
    (print ("Loading " ++ input_file ++ "...") ;;;
     call (EvFromFile input_file) (from_file env input_file) ;;;
     print ("Converting to " ++ output_format ++ "...") ;;;
     call (EvExport input_file output_file output_format)
          (export env input_file output_file output_format) ;;;
     print ("Successfully saved to: " ++ output_file) ;;;
     ret true)
    (fun e =>
       print ("Conversion error: " ++ exn_str e) ;;;
       print ("Full error details: " ++ type_name e) ;;;
       ret false).

(** [convert_audio(input_file, output_format, output_file=None)] *)
Definition convert_audio (env : Env) (input_file output_format : string)
    (output_file : option string) : M bool :=
  try_except
    (available <- check_ffmpeg env ;;
     if negb available then ret false
     else if negb (os_path_isfile env input_file) then
       print ("Error: Input file not found: " ++ input_file) ;;;
       ret false
     else if negb (validate_format output_format) then
       print ("Error: Unsupported output format: " ++ output_format) ;;;
       print ("Supported formats: " ++ String.concat ", " get_supported_formats) ;;;
       ret false
     else
       let output_file := handle_output_path env input_file output_format output_file in
       returned <- create_output_directory env output_file ;;
       match returned with
       | Some b => ret b
       | None => load_and_convert env input_file output_format output_file
       end)
    (fun e =>
       print ("Unexpected error: " ++ exn_str e) ;;;
       ret false).

(** [main()]: the exit status of the process and the trace of the run.
    [sys.argv] is [argv]. *)
Definition main (env : Env) (argv : list string) : Z * list event :=
  if (List.length argv =? 1)%nat then (1, [EvPrintHelp])
  else
    match parse_args env argv with
    | ParserExit status => (status, [EvParseArgs argv])
    | Parsed input output_format output =>
        let input_file := Py.replace_char "\"%char "/"%char input in
        let output_file :=
          if Py.truthy_opt output
          then option_map (Py.replace_char "\"%char "/"%char) output
          else None in
        match convert_audio env input_file output_format output_file with
        | (Ret success, t) => ((if success then 0 else 1), EvParseArgs argv :: t)
        | (Raise e, t) => (1, EvParseArgs argv :: (t ++ [EvTraceback e])%list)
        end
    end.

(** ** The steps of a conversion and what a trace shows of them *)

Inductive step : Type :=
  | EngineCheck
  | ExistenceCheck
  | FormatValidation
  | DirectoryCreation
  | EngineConversion.

Definition step_rank (s : step) : nat :=
  match s with
  | EngineCheck => 0
  | ExistenceCheck => 1
  | FormatValidation => 2
  | DirectoryCreation => 3
  | EngineConversion => 4
  end.

(** The step an effectful call belongs to (a printed line belongs to none). *)
Definition event_step (ev : event) : option step :=
  match ev with
  | EvFfmpegVersion => Some EngineCheck
  | EvMakedirs _ => Some DirectoryCreation
  | EvFromFile _ | EvExport _ _ _ => Some EngineConversion
  | _ => None
  end.

(** No event of the trace belongs to a step after [s]. *)
Definition stops_at (s : step) (t : list event) : bool :=
  forallb (fun ev =>
             match event_step ev with
             | Some s' => (step_rank s' <=? step_rank s)%nat
             | None => true
             end) t.

(** The engine's conversion operation: loading the input and exporting. *)
Definition is_engine_conversion (ev : event) : bool :=
  match ev with
  | EvFromFile _ | EvExport _ _ _ => true
  | _ => false
  end.

(** A call that changes the file system: a directory is created or an
    output file is written. *)
Definition is_filesystem_mutation (ev : event) : bool :=
  match ev with
  | EvMakedirs _ | EvExport _ _ _ => true
  | _ => false
  end.

(** The engine check answers [True]. *)
Definition engine_available (env : Env) : bool :=
  match fst (check_ffmpeg env) with
  | Ret true => true
  | _ => false
  end.

(** The directory of the resolved path is there after the creation step:
    there is nothing to create, or [os.makedirs] does not raise. *)
Definition directory_created (env : Env) (resolved : string) : bool :=
  let output_dir := PosixPath.dirname resolved in
  negb (Py.truthy output_dir)
  || match os_makedirs env output_dir true with
     | None => true
     | Some _ => false
     end.

(** The engine loads the input and writes the output. *)
Definition engine_converts (env : Env) (input_file output_format resolved : string) : bool :=
  match from_file env input_file, export env input_file resolved output_format with
  | None, None => true
  | _, _ => false
  end.

(** The first failing step of the sequence of section 4.4 of the
    specification, read off the environment; [None] when every step
    succeeds. *)
Definition first_failing_step (env : Env) (input_file output_format : string)
    (output_file : option string) : option step :=
  let resolved := handle_output_path env input_file output_format output_file in
  if negb (engine_available env) then Some EngineCheck
  else if negb (os_path_isfile env input_file) then Some ExistenceCheck
  else if negb (validate_format output_format) then Some FormatValidation
  else if negb (directory_created env resolved) then Some DirectoryCreation
  else if negb (engine_converts env input_file output_format resolved) then Some EngineConversion
  else None.

(** The trace ends with a printed line. *)
Definition ends_with_diagnostic (t : list event) : bool :=
  match last t EvPrintHelp with
  | EvPrint _ => true
  | _ => false
  end.

(** ** Sample environments *)

(** A machine on which FFmpeg answers, [a/song.wav] and [song.wav] are files,
    [b] is a directory, and every later step succeeds. *)
Definition env_ok : Env :=
  {| ffmpeg_version := None;
     os_path_exists := fun p => existsb (String.eqb p) ["a/song.wav"; "song.wav"; "a"; "b"; "b/"];
     os_path_isfile := fun p => existsb (String.eqb p) ["a/song.wav"; "song.wav"];
     os_path_isdir := fun p => existsb (String.eqb p) ["a"; "b"; "b/"];
     os_mkdir := fun d =>
       if existsb (String.eqb d) ["a/song.wav"; "song.wav"; "a"; "b"; "b/"]
       then Some (mk_exn FileExistsError ("[Errno 17] File exists: '" ++ d ++ "'"))
       else None;
     from_file := fun _ => None;
     export := fun _ _ _ => None;
     parse_args := fun argv =>
       match argv with
       | [_; "--input"; i; "--output_format"; f] => Parsed i f None
       | [_; "--input"; i; "--output_format"; f; "--output"; o] => Parsed i f (Some o)
       | [_; "-h"] => ParserExit 0
       | _ => ParserExit 2
       end |}.

(** The same machine without FFmpeg: the probe finds no executable and no
    [ffmpeg.exe] lies in the working directory. *)
Definition env_no_ffmpeg : Env :=
  {| ffmpeg_version := Some (mk_exn FileNotFoundError "[Errno 2] No such file or directory: 'ffmpeg'");
     os_path_exists := os_path_exists env_ok;
     os_path_isfile := os_path_isfile env_ok;
     os_path_isdir := os_path_isdir env_ok;
     os_mkdir := os_mkdir env_ok;
     from_file := from_file env_ok;
     export := export env_ok;
     parse_args := parse_args env_ok |}.

(** The same machine on which no directory can be created. *)
Definition env_readonly : Env :=
  {| ffmpeg_version := None;
     os_path_exists := os_path_exists env_ok;
     os_path_isfile := os_path_isfile env_ok;
     os_path_isdir := os_path_isdir env_ok;
     os_mkdir := fun d =>
       if os_path_exists env_ok d
       then Some (mk_exn FileExistsError ("[Errno 17] File exists: '" ++ d ++ "'"))
       else Some (mk_exn PermissionError ("[Errno 13] Permission denied: '" ++ d ++ "'"));
     from_file := from_file env_ok;
     export := export env_ok;
     parse_args := parse_args env_ok |}.

(** ** The calls of a run *)

(** A call to a collaborator (everything but a printed line). *)
Definition is_call (ev : event) : bool :=
  match ev with
  | EvPrint _ => false
  | _ => true
  end.

Definition is_makedirs (ev : event) : bool :=
  match ev with
  | EvMakedirs _ => true
  | _ => false
  end.


(** The calls of a run of [convert_audio] in which every step succeeds: the
    probe, [os.makedirs] when the resolved path has a directory part, the
    load and the export. *)
Definition planned_calls (env : Env) (input_file output_format : string)
    (output_file : option string) : list event :=
  let resolved := handle_output_path env input_file output_format output_file in
  let output_dir := PosixPath.dirname resolved in
  ([EvFfmpegVersion]
   ++ (if Py.truthy output_dir then [EvMakedirs output_dir] else [])
   ++ [EvFromFile input_file; EvExport input_file resolved output_format])%list.

(** The character [c] does not occur in [s]. *)
Definition absent (c : ascii) (s : string) : Prop := Py.rfind c s = -1.

Definition backslash : ascii := "\"%char.

(** ** More sample environments *)

(** FFmpeg is not on the search path, but [ffmpeg.exe] lies in the working
    directory. *)
Definition env_local_ffmpeg : Env :=
  {| ffmpeg_version := ffmpeg_version env_no_ffmpeg;
     os_path_exists := fun p => (p =? "ffmpeg.exe")%string || os_path_exists env_ok p;
     os_path_isfile := fun p => (p =? "ffmpeg.exe")%string || os_path_isfile env_ok p;
     os_path_isdir := os_path_isdir env_ok;
     os_mkdir := os_mkdir env_ok;
     from_file := from_file env_ok;
     export := export env_ok;
     parse_args := parse_args env_ok |}.

(** The probe cannot be started: [ffmpeg] is found but may not be run. *)
Definition env_ffmpeg_denied : Env :=
  {| ffmpeg_version := Some (mk_exn PermissionError "[Errno 13] Permission denied: 'ffmpeg'");
     os_path_exists := os_path_exists env_ok;
     os_path_isfile := os_path_isfile env_ok;
     os_path_isdir := os_path_isdir env_ok;
     os_mkdir := os_mkdir env_ok;
     from_file := from_file env_ok;
     export := export env_ok;
     parse_args := parse_args env_ok |}.

(** The input cannot be decoded. *)
Definition env_corrupt_input : Env :=
  {| ffmpeg_version := None;
     os_path_exists := os_path_exists env_ok;
     os_path_isfile := os_path_isfile env_ok;
     os_path_isdir := os_path_isdir env_ok;
     os_mkdir := os_mkdir env_ok;
     from_file := fun _ => Some (mk_exn (OtherException "CouldntDecodeError")
                                   "Decoding failed. ffmpeg returned error code: 1");
     export := export env_ok;
     parse_args := parse_args env_ok |}.

(** The output cannot be written. *)
Definition env_disk_full : Env :=
  {| ffmpeg_version := None;
     os_path_exists := os_path_exists env_ok;
     os_path_isfile := os_path_isfile env_ok;
     os_path_isdir := os_path_isdir env_ok;
     os_mkdir := os_mkdir env_ok;
     from_file := from_file env_ok;
     export := fun _ _ _ => Some (mk_exn OSError "[Errno 28] No space left on device");
     parse_args := parse_args env_ok |}.

(** ** Worked examples of the path functions *)

Example basename_ex : PosixPath.basename "a/song.wav" = "song.wav".
Proof. reflexivity. Qed.

Example dirname_ex :
  PosixPath.dirname "c/renamed.ogg" = "c" /\ PosixPath.dirname "song.mp3" = ""
  /\ PosixPath.dirname "/song.mp3" = "/" /\ PosixPath.dirname "a//b/x" = "a//b".
Proof. repeat split. Qed.

Example splitext_ex :
  PosixPath.splitext "song.wav" = ("song", ".wav")
  /\ PosixPath.splitext ".bashrc" = (".bashrc", "")
  /\ PosixPath.splitext "a.b/c" = ("a.b/c", "")
  /\ PosixPath.splitext "x.tar.gz" = ("x.tar", ".gz")
  /\ PosixPath.splitext "..a" = ("..a", "")
  /\ PosixPath.splitext "..a.b" = ("..a", ".b").
Proof. repeat split. Qed.

Example join_ex :
  PosixPath.join "b/" "song.flac" = "b/song.flac"
  /\ PosixPath.join "c" "song.ogg" = "c/song.ogg"
  /\ PosixPath.join "" "song.ogg" = "song.ogg".
Proof. repeat split. Qed.

(** ** Facts about the string functions *)

Section StringFacts.

Lemma lower_char_idem (c : ascii) : Py.lower_char (Py.lower_char c) = Py.lower_char c.
Proof. destruct c as [[] [] [] [] [] [] [] []]; vm_compute; reflexivity. Qed.

Lemma lower_upper_char (c : ascii) : Py.lower_char (Py.upper_char c) = Py.lower_char c.
Proof. destruct c as [[] [] [] [] [] [] [] []]; vm_compute; reflexivity. Qed.

Lemma lower_idem (s : string) : Py.lower (Py.lower s) = Py.lower s.
Proof.
  induction s as [|c t IH]; simpl; [reflexivity|].
  now rewrite lower_char_idem, IH.
Qed.

Lemma lower_upper (s : string) : Py.lower (Py.upper s) = Py.lower s.
Proof.
  induction s as [|c t IH]; simpl; [reflexivity|].
  now rewrite lower_upper_char, IH.
Qed.

Lemma contains_In (x : string) (l : list string) :
  Py.contains x l = true <-> In x l.
Proof.
  unfold Py.contains. rewrite existsb_exists. split.
  - intros [y [Hy Heq]]. apply String.eqb_eq in Heq. now subst.
  - intros H. exists x. split; [assumption | apply String.eqb_refl].
Qed.

(** The separator survives [lower] and is produced by no letter. *)
Lemma lower_char_sep (c : ascii) :
  Ascii.eqb (Py.lower_char c) PosixPath.sep = Ascii.eqb c PosixPath.sep.
Proof. destruct c as [[] [] [] [] [] [] [] []]; vm_compute; reflexivity. Qed.

Lemma rfind_lower_sep (s : string) :
  Py.rfind PosixPath.sep (Py.lower s) = Py.rfind PosixPath.sep s.
Proof.
  induction s as [|c t IH]; simpl; [reflexivity|].
  now rewrite IH, lower_char_sep.
Qed.

Lemma rfind_ge (c : ascii) (s : string) : -1 <= Py.rfind c s.
Proof.
  induction s as [|a t IH]; simpl; [lia|].
  destruct (Py.rfind c t <? 0) eqn:E.
  - destruct (Ascii.eqb a c); lia.
  - apply Z.ltb_ge in E. lia.
Qed.

Lemma rfind_lt_len (c : ascii) (s : string) : Py.rfind c s < Py.len s.
Proof.
  unfold Py.len. induction s as [|a t IH]; simpl String.length; simpl Py.rfind; [lia|].
  destruct (Py.rfind c t <? 0) eqn:E.
  - destruct (Ascii.eqb a c); lia.
  - lia.
Qed.

(** A string without [c]: [rfind] answers [-1]. *)
Lemma rfind_app_absent (c : ascii) (s t : string) :
  Py.rfind c s = -1 -> Py.rfind c t = -1 -> Py.rfind c (s ++ t) = -1.
Proof.
  intros Hs Ht. induction s as [|a u IH]; simpl in *; [assumption|].
  destruct (Py.rfind c u <? 0) eqn:E.
  - apply Z.ltb_lt in E. pose proof (rfind_ge c u) as G.
    rewrite IH by lia. simpl.
    destruct (Ascii.eqb a c); [discriminate | reflexivity].
  - apply Z.ltb_ge in E. lia.
Qed.

Lemma rfind_take_absent (c : ascii) (n : nat) (s : string) :
  Py.rfind c s = -1 -> Py.rfind c (Py.take n s) = -1.
Proof.
  revert n. induction s as [|a u IH]; intros n H; destruct n; simpl in *; try reflexivity.
  destruct (Py.rfind c u <? 0) eqn:E.
  - apply Z.ltb_lt in E. pose proof (rfind_ge c u) as G.
    rewrite IH by lia. simpl. assumption.
  - apply Z.ltb_ge in E. lia.
Qed.

(** What follows the last [c] holds no [c]. *)
Lemma rfind_drop_after_last (c : ascii) (s : string) :
  Py.rfind c (Py.drop (Z.to_nat (Py.rfind c s + 1)) s) = -1.
Proof.
  induction s as [|a u IH]; simpl; [reflexivity|].
  destruct (Py.rfind c u <? 0) eqn:E.
  - apply Z.ltb_lt in E. pose proof (rfind_ge c u) as G.
    assert (Hu : Py.rfind c u = -1) by lia.
    rewrite Hu in IH. simpl in IH.
    destruct (Ascii.eqb a c) eqn:Eac; simpl.
    + exact IH.
    + rewrite Hu. simpl. now rewrite Eac.
  - apply Z.ltb_ge in E.
    replace (Z.to_nat (Py.rfind c u + 1 + 1)) with (S (Z.to_nat (Py.rfind c u + 1))) by lia.
    simpl. exact IH.
Qed.

Lemma clamp_nonneg (i : Z) (s : string) :
  0 <= i <= Py.len s -> Py.clamp i s = Z.to_nat i.
Proof.
  intros H. unfold Py.clamp.
  destruct (i <? 0) eqn:E; [apply Z.ltb_lt in E; lia|].
  f_equal. lia.
Qed.

Lemma basename_no_sep (p : string) :
  Py.rfind PosixPath.sep (PosixPath.basename p) = -1.
Proof.
  unfold PosixPath.basename, Py.slice_from.
  pose proof (rfind_ge PosixPath.sep p). pose proof (rfind_lt_len PosixPath.sep p).
  rewrite clamp_nonneg by lia.
  apply rfind_drop_after_last.
Qed.

Lemma splitext_fst_no_sep (p : string) :
  Py.rfind PosixPath.sep p = -1 ->
  Py.rfind PosixPath.sep (fst (PosixPath.splitext p)) = -1.
Proof.
  intros H. unfold PosixPath.splitext.
  match goal with |- context [if ?b then _ else _] => destruct b end; simpl.
  - unfold Py.slice_to. now apply rfind_take_absent.
  - assumption.
Qed.

(** The stem of the input file holds no separator. *)
Lemma original_filename_no_sep (input_file : string) :
  Py.rfind PosixPath.sep (original_filename input_file) = -1.
Proof.
  unfold original_filename. apply splitext_fst_no_sep, basename_no_sep.
Qed.

Lemma slice_to_0 (s : string) : Py.slice_to 0 s = "".
Proof.
  unfold Py.slice_to. rewrite clamp_nonneg by (unfold Py.len; lia). reflexivity.
Qed.

Lemma dirname_no_sep (p : string) :
  Py.rfind PosixPath.sep p = -1 -> PosixPath.dirname p = "".
Proof.
  intros H. unfold PosixPath.dirname. rewrite H.
  change (-1 + 1) with 0. rewrite slice_to_0. reflexivity.
Qed.

End StringFacts.

(** ** Facts about the format validator *)

Lemma validate_format_In (format_str : string) :
  validate_format format_str = true <-> In (Py.lower format_str) get_supported_formats.
Proof. unfold validate_format. apply contains_In. Qed.

(** A supported format holds no path separator. *)
Lemma validate_format_no_sep (format_str : string) :
  validate_format format_str = true -> Py.rfind PosixPath.sep format_str = -1.
Proof.
  intros H. apply validate_format_In in H.
  rewrite <- rfind_lower_sep.
  simpl in H.
  repeat (destruct H as [H|H]; [rewrite <- H; reflexivity|]).
  contradiction.
Qed.

(** ** The blocks of [convert_audio], case by case *)

Lemma check_ffmpeg_cases (env : Env) :
  check_ffmpeg env =
  match ffmpeg_version env with
  | None => (Ret true, [EvFfmpegVersion])
  | Some e =>
      if is_SubprocessError e || is_FileNotFoundError e then
        if os_path_exists env "ffmpeg.exe" then (Ret true, [EvFfmpegVersion])
        else (Ret false, [EvFfmpegVersion; EvPrint ffmpeg_not_found_message])
      else (Raise e, [EvFfmpegVersion])
  end.
Proof.
  unfold check_ffmpeg, try_except_only, try_except, bind, call, print, emit, ret, raise.
  destruct (ffmpeg_version env) as [e|]; [|reflexivity].
  destruct (is_SubprocessError e || is_FileNotFoundError e); [|reflexivity].
  destruct (os_path_exists env "ffmpeg.exe"); reflexivity.
Qed.

Lemma create_output_directory_cases (env : Env) (output_file : string) :
  create_output_directory env output_file =
  let output_dir := PosixPath.dirname output_file in
  if Py.truthy output_dir then
    match os_makedirs env output_dir true with
    | None =>
        (Ret None,
         [EvMakedirs output_dir; EvPrint ("Created/verified directory: " ++ output_dir)])
    | Some e =>
        (Ret (Some false),
         [EvMakedirs output_dir;
          EvPrint ("Error creating directory " ++ output_dir ++ ": " ++ exn_str e)])
    end
  else (Ret None, []).
Proof.
  unfold create_output_directory, try_except, bind, call, print, emit, ret.
  cbv zeta.
  destruct (Py.truthy (PosixPath.dirname output_file)); [|reflexivity].
  destruct (os_makedirs env (PosixPath.dirname output_file) true); reflexivity.
Qed.

Lemma load_and_convert_cases (env : Env) (input_file output_format output_file : string) :
  load_and_convert env input_file output_format output_file =
  match from_file env input_file with
  | Some e =>
      (Ret false,
       [EvPrint ("Loading " ++ input_file ++ "..."); EvFromFile input_file;
        EvPrint ("Conversion error: " ++ exn_str e);
        EvPrint ("Full error details: " ++ type_name e)])
  | None =>
      match export env input_file output_file output_format with
      | Some e =>
          (Ret false,
           [EvPrint ("Loading " ++ input_file ++ "..."); EvFromFile input_file;
            EvPrint ("Converting to " ++ output_format ++ "...");
            EvExport input_file output_file output_format;
            EvPrint ("Conversion error: " ++ exn_str e);
            EvPrint ("Full error details: " ++ type_name e)])
      | None =>
          (Ret true,
           [EvPrint ("Loading " ++ input_file ++ "..."); EvFromFile input_file;
            EvPrint ("Converting to " ++ output_format ++ "...");
            EvExport input_file output_file output_format;
            EvPrint ("Successfully saved to: " ++ output_file)])
      end
  end.
Proof.
  unfold load_and_convert, try_except, bind, call, print, emit, ret.
  destruct (from_file env input_file); [reflexivity|].
  destruct (export env input_file output_file output_format); reflexivity.
Qed.

(** [convert_audio] when the engine check does not answer [True]. *)
Lemma convert_audio_unavailable (env : Env) (input_file output_format : string)
    (output_file : option string) (t : list event) :
  check_ffmpeg env = (Ret false, t) ->
  convert_audio env input_file output_format output_file = (Ret false, t).
Proof.
  intros H. unfold convert_audio, try_except, bind. rewrite H. simpl.
  now rewrite app_nil_r.
Qed.

Lemma convert_audio_check_raises (env : Env) (input_file output_format : string)
    (output_file : option string) (e : exn) (t : list event) :
  check_ffmpeg env = (Raise e, t) ->
  convert_audio env input_file output_format output_file =
  (Ret false, (t ++ [EvPrint ("Unexpected error: " ++ exn_str e)])%list).
Proof.
  intros H. unfold convert_audio, try_except, bind. rewrite H. reflexivity.
Qed.

(** [convert_audio] once the engine check has answered [True]. *)
Lemma convert_audio_available (env : Env) (input_file output_format : string)
    (output_file : option string) (t : list event) :
  check_ffmpeg env = (Ret true, t) ->
  convert_audio env input_file output_format output_file =
  if negb (os_path_isfile env input_file) then
    (Ret false, (t ++ [EvPrint ("Error: Input file not found: " ++ input_file)])%list)
  else if negb (validate_format output_format) then
    (Ret false,
     (t ++ [EvPrint ("Error: Unsupported output format: " ++ output_format);
            EvPrint ("Supported formats: " ++ String.concat ", " get_supported_formats)])%list)
  else
    let resolved := handle_output_path env input_file output_format output_file in
    match create_output_directory env resolved with
    | (Ret (Some b), t1) => (Ret b, (t ++ t1)%list)
    | (Ret None, t1) =>
        let (r, t2) := load_and_convert env input_file output_format resolved in
        (r, (t ++ t1 ++ t2)%list)
    | (Raise e, t1) =>
        (Ret false, (t ++ t1 ++ [EvPrint ("Unexpected error: " ++ exn_str e)])%list)
    end.
Proof.
  intros H. unfold convert_audio. unfold try_except at 1. unfold bind at 1.
  rewrite H. cbn [negb].
  destruct (os_path_isfile env input_file); cbn [negb].
  2:{ unfold bind, print, emit, ret. reflexivity. }
  destruct (validate_format output_format); cbn [negb].
  2:{ unfold bind, print, emit, ret. reflexivity. }
  cbv zeta.
  rewrite create_output_directory_cases, load_and_convert_cases. cbv zeta.
  unfold bind, ret.
  destruct (Py.truthy _).
  - destruct (os_makedirs _ _ _); [reflexivity|].
    destruct (from_file _ _); [reflexivity|].
    destruct (export _ _ _ _); reflexivity.
  - destruct (from_file _ _); [reflexivity|].
    destruct (export _ _ _ _); reflexivity.
Qed.

(** ** Proof steps shared by the theorems on [convert_audio] *)

(** Splits on what the engine check does, leaving [Hc] with its value. *)
Ltac ffmpeg_cases env Hc :=
  pose proof (check_ffmpeg_cases env) as Hc;
  let e := fresh "e" in
  destruct (ffmpeg_version env) as [e|] eqn:?;
  [ destruct (is_SubprocessError e || is_FileNotFoundError e) eqn:?;
    [ destruct (os_path_exists env "ffmpeg.exe") eqn:? | ] | ].

(** Splits on every later step of an available run. *)
Ltac later_cases :=
  rewrite ?create_output_directory_cases, ?load_and_convert_cases; cbv zeta;
  repeat match goal with
         | |- context [Py.truthy (PosixPath.dirname ?p)] =>
             destruct (Py.truthy (PosixPath.dirname p)) eqn:?
         | |- context [os_makedirs ?env ?d ?b] => destruct (os_makedirs env d b) eqn:?
         | |- context [from_file ?env ?i] => destruct (from_file env i) eqn:?
         | |- context [export ?env ?i ?o ?f] => destruct (export env i o f) eqn:?
         end.

Lemma convert_audio_total (env : Env) (input_file output_format : string)
    (output_file : option string) :
  exists b, fst (convert_audio env input_file output_format output_file) = Ret b.
Proof.
  ffmpeg_cases env Hc.
  - rewrite (convert_audio_available _ _ _ _ _ Hc).
    destruct (os_path_isfile env input_file); cbn [negb]; [|eexists; reflexivity].
    destruct (validate_format output_format); cbn [negb]; [|eexists; reflexivity].
    cbv zeta. later_cases; eexists; reflexivity.
  - rewrite (convert_audio_unavailable _ _ _ _ _ Hc). eexists; reflexivity.
  - rewrite (convert_audio_check_raises _ _ _ _ _ _ Hc). eexists; reflexivity.
  - rewrite (convert_audio_available _ _ _ _ _ Hc).
    destruct (os_path_isfile env input_file); cbn [negb]; [|eexists; reflexivity].
    destruct (validate_format output_format); cbn [negb]; [|eexists; reflexivity].
    cbv zeta. later_cases; eexists; reflexivity.
Qed.

(** Rewrites [convert_audio] by the case of the engine check and splits on
    the existence check and the format validation. *)
Ltac convert_cases env input_file output_format Hc :=
  ffmpeg_cases env Hc;
  [ rewrite (convert_audio_available _ _ _ _ _ Hc)
  | rewrite (convert_audio_unavailable _ _ _ _ _ Hc)
  | rewrite (convert_audio_check_raises _ _ _ _ _ _ Hc)
  | rewrite (convert_audio_available _ _ _ _ _ Hc) ];
  unfold engine_available; rewrite ?Hc; cbn [fst snd negb];
  try (destruct (os_path_isfile env input_file) eqn:?; cbn [negb];
       [ destruct (validate_format output_format) eqn:?; cbn [negb] | ]).

(** C6: [convert_audio] always returns a boolean and never raises; it
    returns [True] exactly when no step of the sequence (engine check,
    existence check, format validation, directory creation, engine
    conversion) fails; when a step fails, it returns [False], the last thing
    it does is print a line, and no call of a later step was made. *)
Theorem convert_audio_returns_bool_first_failure_aborts
    (env : Env) (input_file output_format : string) (output_file : option string) :
  let r := convert_audio env input_file output_format output_file in
  (exists b, fst r = Ret b)
  /\ (fst r = Ret true
      <-> first_failing_step env input_file output_format output_file = None)
  /\ (forall s,
        first_failing_step env input_file output_format output_file = Some s ->
        fst r = Ret false
        /\ ends_with_diagnostic (snd r) = true
        /\ stops_at s (snd r) = true).
Proof.
  cbv zeta. unfold first_failing_step, directory_created, engine_converts.
  convert_cases env input_file output_format Hc; later_cases;
    cbn [fst snd negb orb];
    (split; [eexists; reflexivity|]);
    (split; [split; intros H; first [reflexivity | discriminate H]|]);
    intros s Hs; inversion Hs; subst; repeat split.
Qed.

(** C6 on the machine where no directory can be created: the run stops at
    the directory step. *)
Lemma convert_audio_first_failure_witness :
  first_failing_step env_readonly "a/song.wav" "ogg" (Some "c/renamed.ogg")
  = Some DirectoryCreation
  /\ fst (convert_audio env_readonly "a/song.wav" "ogg" (Some "c/renamed.ogg")) = Ret false
  /\ ends_with_diagnostic
       (snd (convert_audio env_readonly "a/song.wav" "ogg" (Some "c/renamed.ogg"))) = true
  /\ stops_at DirectoryCreation
       (snd (convert_audio env_readonly "a/song.wav" "ogg" (Some "c/renamed.ogg"))) = true.
Proof.
  split; [reflexivity|].
  exact (proj2 (proj2 (convert_audio_returns_bool_first_failure_aborts
                         env_readonly "a/song.wav" "ogg" (Some "c/renamed.ogg")))
           DirectoryCreation eq_refl).
Defined.

(** C4: when [os.path.isfile(input_file)] is false, [convert_audio] returns
    [False] and its trace holds no call of the engine's conversion (neither
    [AudioSegment.from_file] nor [export]); when the engine check has passed,
    so that the existence check is the step that fails, the trace is that of
    the engine check followed by the line [Error: Input file not found: ...]. *)
Theorem convert_audio_missing_input_no_conversion
    (env : Env) (input_file output_format : string) (output_file : option string) :
  os_path_isfile env input_file = false ->
  let r := convert_audio env input_file output_format output_file in
  fst r = Ret false
  /\ existsb is_engine_conversion (snd r) = false
  /\ (engine_available env = true ->
      snd r = (snd (check_ffmpeg env)
               ++ [EvPrint ("Error: Input file not found: " ++ input_file)])%list).
Proof.
  intros Hfile. cbv zeta.
  convert_cases env input_file output_format Hc; try discriminate Hfile;
    repeat split; intros Hav; discriminate Hav.
Qed.

(** C4 on a machine with FFmpeg where [missing.wav] is no file. *)
Lemma convert_audio_missing_input_witness :
  fst (convert_audio env_ok "missing.wav" "mp3" None) = Ret false
  /\ existsb is_engine_conversion (snd (convert_audio env_ok "missing.wav" "mp3" None)) = false
  /\ snd (convert_audio env_ok "missing.wav" "mp3" None)
     = [EvFfmpegVersion; EvPrint "Error: Input file not found: missing.wav"].
Proof.
  pose proof (convert_audio_missing_input_no_conversion
                env_ok "missing.wav" "mp3" None eq_refl) as H.
  exact (conj (proj1 H) (conj (proj1 (proj2 H)) (proj2 (proj2 H) eq_refl))).
Defined.

(** C5: when the engine check does not answer [True], [convert_audio] returns
    [False] and its trace holds no call that changes the file system (no
    [os.makedirs], no [export]) and no call of any step after the engine
    check. *)
Theorem convert_audio_engine_unavailable_no_mutation
    (env : Env) (input_file output_format : string) (output_file : option string) :
  engine_available env = false ->
  let r := convert_audio env input_file output_format output_file in
  fst r = Ret false
  /\ existsb is_filesystem_mutation (snd r) = false
  /\ stops_at EngineCheck (snd r) = true.
Proof.
  intros Hav. cbv zeta. revert Hav.
  convert_cases env input_file output_format Hc; intros Hav; try discriminate Hav;
    repeat split.
Qed.

(** C5 on the machine without FFmpeg. *)
Lemma convert_audio_engine_unavailable_witness :
  fst (convert_audio env_no_ffmpeg "a/song.wav" "mp3" (Some "out/x.mp3")) = Ret false
  /\ existsb is_filesystem_mutation
       (snd (convert_audio env_no_ffmpeg "a/song.wav" "mp3" (Some "out/x.mp3"))) = false
  /\ stops_at EngineCheck
       (snd (convert_audio env_no_ffmpeg "a/song.wav" "mp3" (Some "out/x.mp3"))) = true.
Proof.
  exact (convert_audio_engine_unavailable_no_mutation
           env_no_ffmpeg "a/song.wav" "mp3" (Some "out/x.mp3") eq_refl).
Defined.

(** C8: in a run that reaches the directory step with a directory to create,
    (a) a directory that is already there is no error: [os.makedirs] with
    [exist_ok=True] does not raise, and the run goes on to the engine, whose
    success decides the result; (b) when [os.makedirs] raises [e], the line
    [Error creating directory <dir>: <str(e)>] is printed, [convert_audio]
    returns [False] and the engine's conversion is never called. *)
Theorem convert_audio_directory_creation
    (env : Env) (input_file output_format : string) (output_file : option string) :
  engine_available env = true ->
  os_path_isfile env input_file = true ->
  validate_format output_format = true ->
  let resolved := handle_output_path env input_file output_format output_file in
  let output_dir := PosixPath.dirname resolved in
  let r := convert_audio env input_file output_format output_file in
  Py.truthy output_dir = true ->
  (os_path_isdir env output_dir = true ->
   os_makedirs env output_dir true = None
   /\ fst r = Ret (engine_converts env input_file output_format resolved)
   /\ In (EvFromFile input_file) (snd r))
  /\ (forall e,
        os_makedirs env output_dir true = Some e ->
        fst r = Ret false
        /\ In (EvPrint ("Error creating directory " ++ output_dir ++ ": " ++ exn_str e))
              (snd r)
        /\ existsb is_engine_conversion (snd r) = false).
Proof.
  intros Hav Hfile Hfmt. cbv zeta. intros Hdir.
  assert (Hidem : os_path_isdir env
                    (PosixPath.dirname
                       (handle_output_path env input_file output_format output_file)) = true ->
                  os_makedirs env
                    (PosixPath.dirname
                       (handle_output_path env input_file output_format output_file)) true
                  = None).
  { intros Hd. unfold os_makedirs. rewrite Hd.
    destruct (os_mkdir env _); reflexivity. }
  revert Hav. unfold engine_converts.
  convert_cases env input_file output_format Hc; intros Hav;
    try discriminate Hav; try discriminate Hfile; try discriminate Hfmt;
    rewrite create_output_directory_cases; cbv zeta; rewrite Hdir;
    (split;
     [ intros Hd; rewrite (Hidem Hd); split; [reflexivity|];
       later_cases; cbn [fst snd app In]; auto 10
     | intros e' He'; rewrite He'; cbn [fst snd app In existsb is_engine_conversion orb];
       auto 10 ]).
Qed.

(** C8 on two machines: [b] is already a directory and the run converts;
    no directory can be created and the run stops at [c]. *)
Lemma convert_audio_directory_creation_witness :
  (os_mkdir env_ok "b" = Some (mk_exn FileExistsError "[Errno 17] File exists: 'b'")
   /\ os_makedirs env_ok "b" true = None
   /\ fst (convert_audio env_ok "a/song.wav" "flac" (Some "b/x.flac")) = Ret true
   /\ In (EvFromFile "a/song.wav")
         (snd (convert_audio env_ok "a/song.wav" "flac" (Some "b/x.flac"))))
  /\ (fst (convert_audio env_readonly "a/song.wav" "ogg" (Some "c/renamed.ogg")) = Ret false
      /\ In (EvPrint "Error creating directory c: [Errno 13] Permission denied: 'c'")
            (snd (convert_audio env_readonly "a/song.wav" "ogg" (Some "c/renamed.ogg")))
      /\ existsb is_engine_conversion
           (snd (convert_audio env_readonly "a/song.wav" "ogg" (Some "c/renamed.ogg")))
         = false).
Proof.
  split.
  - split; [reflexivity|].
    exact (proj1 (convert_audio_directory_creation
                    env_ok "a/song.wav" "flac" (Some "b/x.flac")
                    eq_refl eq_refl eq_refl eq_refl) eq_refl).
  - exact (proj2 (convert_audio_directory_creation
                    env_readonly "a/song.wav" "ogg" (Some "c/renamed.ogg")
                    eq_refl eq_refl eq_refl eq_refl) _ eq_refl).
Defined.

(** C10: an output path that is the empty string is the absent output path:
    the whole run is the same, and the resolved path is the stem of the
    input, a dot and the requested format, whatever [os.path.isdir] says of
    the empty string; for a supported format that path has no directory
    part. *)
Theorem convert_audio_empty_output_is_absent
    (env : Env) (input_file output_format : string) :
  convert_audio env input_file output_format (Some "")
  = convert_audio env input_file output_format None
  /\ handle_output_path env input_file output_format (Some "")
     = original_filename input_file ++ "." ++ output_format
  /\ (validate_format output_format = true ->
      PosixPath.dirname (handle_output_path env input_file output_format (Some "")) = "").
Proof.
  split; [reflexivity|]. split; [reflexivity|]. intros Hfmt.
  apply dirname_no_sep. cbn [handle_output_path Py.truthy String.eqb negb].
  apply rfind_app_absent; [apply original_filename_no_sep|].
  apply (rfind_app_absent _ "."); [reflexivity|].
  now apply validate_format_no_sep.
Qed.

(** C10 on [a/song.wav] and [mp3]: the empty output path resolves to
    [song.mp3] in the working directory. *)
Lemma convert_audio_empty_output_witness :
  convert_audio env_ok "a/song.wav" "mp3" (Some "")
  = convert_audio env_ok "a/song.wav" "mp3" None
  /\ handle_output_path env_ok "a/song.wav" "mp3" (Some "") = "song.mp3"
  /\ PosixPath.dirname (handle_output_path env_ok "a/song.wav" "mp3" (Some "")) = "".
Proof.
  pose proof (convert_audio_empty_output_is_absent env_ok "a/song.wav" "mp3") as H.
  exact (conj (proj1 H) (conj (proj1 (proj2 H)) (proj2 (proj2 H) eq_refl))).
Defined.

(** ** The resolved output path *)

Lemma handle_output_path_absent (env : Env) (input_file output_format : string) :
  handle_output_path env input_file output_format None
  = original_filename input_file ++ "." ++ output_format.
Proof. reflexivity. Qed.

Lemma handle_output_path_directory (env : Env) (input_file output_format out : string) :
  out <> "" ->
  os_path_isdir env out = true ->
  handle_output_path env input_file output_format (Some out)
  = PosixPath.join out (original_filename input_file ++ "." ++ output_format).
Proof.
  intros Hne Hdir. unfold handle_output_path, Py.truthy.
  destruct (String.eqb_spec out ""); [contradiction|].
  cbn [negb]. now rewrite Hdir.
Qed.

(** A file-like output path with a directory part: the directory is kept and
    the file name is rebuilt from the input. *)
Lemma handle_output_path_file_in_directory
    (env : Env) (input_file output_format out : string) :
  out <> "" ->
  os_path_isdir env out = false ->
  PosixPath.dirname out <> "" ->
  handle_output_path env input_file output_format (Some out)
  = PosixPath.join (PosixPath.dirname out)
      (original_filename input_file ++ "." ++ output_format).
Proof.
  intros Hne Hdir Hd. unfold handle_output_path, Py.truthy.
  destruct (String.eqb_spec out ""); [contradiction|].
  cbn [negb]. rewrite Hdir.
  destruct (String.eqb_spec (PosixPath.dirname out) ""); [contradiction|].
  reflexivity.
Qed.

(** A file-like output path without a directory part is left as it is. *)
Lemma handle_output_path_bare_name
    (env : Env) (input_file output_format out : string) :
  out <> "" ->
  os_path_isdir env out = false ->
  PosixPath.dirname out = "" ->
  handle_output_path env input_file output_format (Some out) = out.
Proof.
  intros Hne Hdir Hd. unfold handle_output_path, Py.truthy.
  destruct (String.eqb_spec out ""); [contradiction|].
  cbn [negb]. rewrite Hdir, Hd. reflexivity.
Qed.

(** A run that returns [True] has exported to the resolved path and has
    reported it. *)
Lemma convert_audio_exports_to_resolved
    (env : Env) (input_file output_format : string) (output_file : option string) :
  fst (convert_audio env input_file output_format output_file) = Ret true ->
  let resolved := handle_output_path env input_file output_format output_file in
  In (EvExport input_file resolved output_format)
     (snd (convert_audio env input_file output_format output_file))
  /\ In (EvPrint ("Successfully saved to: " ++ resolved))
        (snd (convert_audio env input_file output_format output_file)).
Proof.
  cbv zeta.
  convert_cases env input_file output_format Hc; later_cases;
    cbn [fst snd app In]; intros H; try discriminate H; auto 12.
Qed.

(** C7: when the supplied output path names an existing directory, the
    resolved path is [os.path.join] of that directory and the stem of the
    input, a dot and the requested format; a run that returns [True] has
    exported to that path. *)
Theorem handle_output_path_existing_directory
    (env : Env) (input_file output_format out : string) :
  out <> "" ->
  os_path_isdir env out = true ->
  handle_output_path env input_file output_format (Some out)
  = PosixPath.join out (original_filename input_file ++ "." ++ output_format)
  /\ (fst (convert_audio env input_file output_format (Some out)) = Ret true ->
      In (EvExport input_file
            (PosixPath.join out (original_filename input_file ++ "." ++ output_format))
            output_format)
         (snd (convert_audio env input_file output_format (Some out)))).
Proof.
  intros Hne Hdir.
  pose proof (handle_output_path_directory env input_file output_format out Hne Hdir) as E.
  split; [exact E|].
  intros Hok. rewrite <- E.
  exact (proj1 (convert_audio_exports_to_resolved env input_file output_format (Some out) Hok)).
Qed.

(** C7 on the example of the specification: [a/song.wav], [flac], [b/]. *)
Lemma handle_output_path_existing_directory_witness :
  handle_output_path env_ok "a/song.wav" "flac" (Some "b/") = "b/song.flac"
  /\ (fst (convert_audio env_ok "a/song.wav" "flac" (Some "b/")) = Ret true ->
      In (EvExport "a/song.wav" "b/song.flac" "flac")
         (snd (convert_audio env_ok "a/song.wav" "flac" (Some "b/")))).
Proof.
  exact (handle_output_path_existing_directory env_ok "a/song.wav" "flac" "b/"
           ltac:(discriminate) eq_refl).
Defined.

(** C3: [validate_format] is a pure function of its argument that answers
    [True] exactly when the lower-cased token is one of [mp3], [wav], [ogg],
    [m4a], [flac], [aac], [wma]; it does not tell upper case from lower case;
    [MP3] and [mp3] validate, the empty string and [xyz] do not, and every
    supported token validates in lower and in upper case. *)
Theorem validate_format_case_insensitive_membership :
  (forall s : string,
      (validate_format s = true
       <-> In (Py.lower s) ["mp3"; "wav"; "ogg"; "m4a"; "flac"; "aac"; "wma"])
      /\ (validate_format s = false
          <-> ~ In (Py.lower s) ["mp3"; "wav"; "ogg"; "m4a"; "flac"; "aac"; "wma"])
      /\ validate_format (Py.upper s) = validate_format s
      /\ validate_format (Py.lower s) = validate_format s)
  /\ validate_format "MP3" = true
  /\ validate_format "mp3" = true
  /\ validate_format "" = false
  /\ validate_format "xyz" = false
  /\ forallb (fun f => validate_format f && validate_format (Py.upper f))
       get_supported_formats = true.
Proof.
  split; [|repeat split].
  intros s. split; [apply validate_format_In|]. split.
  - rewrite <- (validate_format_In s).
    destruct (validate_format s); split; intros H; congruence.
  - unfold validate_format. now rewrite lower_upper, lower_idem.
Qed.

(** C9, amended: started with no argument, [main] prints the usage and
    leaves with status 1; when [argparse] accepts the command line,
    [convert_audio] is called on the paths with their backslashes replaced,
    it returns a boolean, and the exit status is 0 exactly when it returns
    [True] and 1 exactly when it returns [False]; when [argparse] itself ends
    the process (a request for help, a usage error) the exit status is the
    one [argparse] gives and [convert_audio] is not called. *)
Theorem main_exit_status_by_command_line :
  (forall (env : Env) (prog : string), main env [prog] = (1, [EvPrintHelp]))
  /\ (forall (env : Env) (argv : list string) (input output_format : string)
             (output : option string),
        List.length argv <> 1%nat ->
        parse_args env argv = Parsed input output_format output ->
        let returned :=
          fst (convert_audio env
                 (Py.replace_char "\"%char "/"%char input) output_format
                 (if Py.truthy_opt output
                  then option_map (Py.replace_char "\"%char "/"%char) output
                  else None)) in
        (exists success : bool, returned = Ret success)
        /\ (fst (main env argv) = 0 <-> returned = Ret true)
        /\ (fst (main env argv) = 1 <-> returned = Ret false))
  /\ (forall (env : Env) (argv : list string) (status : Z),
        List.length argv <> 1%nat ->
        parse_args env argv = ParserExit status ->
        main env argv = (status, [EvParseArgs argv])).
Proof.
  split; [reflexivity|]. split.
  - intros env argv input output_format output Hlen Hparse. cbv zeta.
    unfold main. destruct (Nat.eqb_spec (List.length argv) 1); [contradiction|].
    rewrite Hparse.
    match goal with
    | |- context [convert_audio ?e ?i ?f ?o] =>
        destruct (convert_audio_total e i f o) as [b Hb];
        destruct (convert_audio e i f o) as [[b'|e'] t]
    end; cbn [fst] in *; [|discriminate Hb].
    split; [exists b'; reflexivity|].
    destruct b'; split; split; intros H;
      first [reflexivity | discriminate H].
  - intros env argv status Hlen Hparse.
    unfold main. destruct (Nat.eqb_spec (List.length argv) 1); [contradiction|].
    now rewrite Hparse.
Qed.

(** C9, amended, on three command lines: a conversion that succeeds leaves
    with 0, a missing input file leaves with 1, a missing required option
    leaves with the status 2 of [argparse]. *)
Lemma main_exit_status_by_command_line_witness :
  fst (main env_ok ["prog"; "--input"; "a\song.wav"; "--output_format"; "wav";
                    "--output"; "c\d\x.wav"]) = 0
  /\ fst (main env_ok ["prog"; "--input"; "missing.wav"; "--output_format"; "wav"]) = 1
  /\ main env_ok ["prog"; "--input"; "a/song.wav"]
     = (2, [EvParseArgs ["prog"; "--input"; "a/song.wav"]]).
Proof.
  destruct main_exit_status_by_command_line as (_ & Hparsed & Hexit).
  split; [|split].
  - apply (proj1 (proj2 (Hparsed env_ok
                           ["prog"; "--input"; "a\song.wav"; "--output_format"; "wav";
                            "--output"; "c\d\x.wav"]
                           "a\song.wav" "wav" (Some "c\d\x.wav")
                           ltac:(discriminate) eq_refl))).
    reflexivity.
  - apply (proj2 (proj2 (Hparsed env_ok
                           ["prog"; "--input"; "missing.wav"; "--output_format"; "wav"]
                           "missing.wav" "wav" None
                           ltac:(discriminate) eq_refl))).
    reflexivity.
  - exact (Hexit env_ok ["prog"; "--input"; "a/song.wav"] 2
             ltac:(discriminate) eq_refl).
Defined.

(** C9 as stated fails where [argparse] ends the process: [-h] leaves with
    status 0 although [convert_audio] is never called, and a command line
    without [--output_format] leaves with status 2, not 1. *)
Lemma main_parser_exit_counterexample :
  main env_ok ["prog"; "-h"] = (0, [EvParseArgs ["prog"; "-h"]])
  /\ main env_ok ["prog"; "--input"; "a/song.wav"]
     = (2, [EvParseArgs ["prog"; "--input"; "a/song.wav"]]).
Proof. split; reflexivity. Qed.

(** C1 at a supplied output path without a directory part: the path is left
    as it was supplied, [renamed.mp3], although the format asked for is
    [ogg] and the stem of the input is [song]; the run exports to it. With a
    directory part, [c/renamed.ogg], the file name is rebuilt: [c/song.ogg]. *)
Theorem handle_output_path_bare_name_kept :
  os_path_isdir env_ok "renamed.mp3" = false
  /\ handle_output_path env_ok "a/song.wav" "ogg" (Some "renamed.mp3") = "renamed.mp3"
  /\ PosixPath.splitext (handle_output_path env_ok "a/song.wav" "ogg" (Some "renamed.mp3"))
     = ("renamed", ".mp3")
  /\ convert_audio env_ok "a/song.wav" "ogg" (Some "renamed.mp3")
     = (Ret true,
        [EvFfmpegVersion; EvPrint "Loading a/song.wav..."; EvFromFile "a/song.wav";
         EvPrint "Converting to ogg..."; EvExport "a/song.wav" "renamed.mp3" "ogg";
         EvPrint "Successfully saved to: renamed.mp3"])
  /\ handle_output_path env_ok "a/song.wav" "ogg" (Some "c/renamed.ogg") = "c/song.ogg".
Proof. repeat split. Qed.

(** C2 at an input file in another directory: with no output path the
    resolved path is [song.mp3], without a directory part, so the file is
    written in the working directory and not in [a], the directory of the
    input; for an input in the working directory the two agree. *)
Theorem handle_output_path_absent_drops_input_directory :
  handle_output_path env_ok "a/song.wav" "mp3" None = "song.mp3"
  /\ PosixPath.dirname (handle_output_path env_ok "a/song.wav" "mp3" None) = ""
  /\ PosixPath.dirname "a/song.wav" = "a"
  /\ convert_audio env_ok "a/song.wav" "mp3" None
     = (Ret true,
        [EvFfmpegVersion; EvPrint "Loading a/song.wav..."; EvFromFile "a/song.wav";
         EvPrint "Converting to mp3..."; EvExport "a/song.wav" "song.mp3" "mp3";
         EvPrint "Successfully saved to: song.mp3"])
  /\ handle_output_path env_ok "song.wav" "mp3" None = "song.mp3"
  /\ PosixPath.dirname "song.wav" = "".
Proof. repeat split. Qed.

(** ** Further properties of the program *)

(** X1: what [check_ffmpeg] does with the probe. It answers [True] exactly
    when the probe succeeds, or fails with a [SubprocessError] or a
    [FileNotFoundError] while [ffmpeg.exe] lies in the working directory; any
    other exception of the probe is raised to the caller; the guidance is
    printed exactly when the answer is [False]; the probe is its only call. *)
Theorem check_ffmpeg_outcomes (env : Env) :
  (fst (check_ffmpeg env) = Ret true
   <-> ffmpeg_version env = None
       \/ exists e, ffmpeg_version env = Some e
                    /\ is_SubprocessError e || is_FileNotFoundError e = true
                    /\ os_path_exists env "ffmpeg.exe" = true)
  /\ (forall e, fst (check_ffmpeg env) = Raise e
                <-> ffmpeg_version env = Some e
                    /\ is_SubprocessError e || is_FileNotFoundError e = false)
  /\ (fst (check_ffmpeg env) = Ret false
      <-> In (EvPrint ffmpeg_not_found_message) (snd (check_ffmpeg env)))
  /\ filter is_call (snd (check_ffmpeg env)) = [EvFfmpegVersion].
Proof.
  rewrite check_ffmpeg_cases.
  destruct (ffmpeg_version env) as [e|] eqn:Hv.
  - destruct (is_SubprocessError e || is_FileNotFoundError e) eqn:Hcatch;
      [destruct (os_path_exists env "ffmpeg.exe") eqn:Hex|]; cbn [fst snd].
    + split; [split; [intros _; right; exists e; auto | reflexivity]|].
      split; [intros e'; split; [discriminate | intros [E1 E2]; congruence]|].
      split; [split; [discriminate | intros [H|[]]; discriminate H]|reflexivity].
    + split; [split; [discriminate | intros [H|[e' [E1 [E2 E3]]]]; congruence]|].
      split; [intros e'; split; [discriminate | intros [E1 E2]; congruence]|].
      split; [split; [intros _; right; left; reflexivity | reflexivity]|reflexivity].
    + split; [split; [discriminate | intros [H|[e' [E1 [E2 E3]]]]; congruence]|].
      split; [intros e'; split; [intros H; inversion H; subst; auto
                                | intros [E1 E2]; congruence]|].
      split; [split; [discriminate | intros [H|[]]; discriminate H]|reflexivity].
  - cbn [fst snd].
    split; [split; [auto | reflexivity]|].
    split; [intros e'; split; [discriminate | intros [E1 E2]; discriminate E1]|].
    split; [split; [discriminate | intros [H|[]]; discriminate H]|reflexivity].
Qed.

Lemma truthy_nonempty (s : string) : Py.truthy s = true -> s <> "".
Proof. intros H E. subst s. discriminate H. Qed.

(** Where each call of a run comes from. *)
Lemma convert_audio_calls_inv
    (env : Env) (input_file output_format : string) (output_file : option string) :
  let resolved := handle_output_path env input_file output_format output_file in
  let t := snd (convert_audio env input_file output_format output_file) in
  (forall d, In (EvMakedirs d) t ->
             d = PosixPath.dirname resolved /\ d <> ""
             /\ os_path_isfile env input_file = true
             /\ validate_format output_format = true)
  /\ (forall p, In (EvFromFile p) t ->
                p = input_file
                /\ os_path_isfile env input_file = true
                /\ validate_format output_format = true
                /\ directory_created env resolved = true)
  /\ (forall p out f, In (EvExport p out f) t ->
                      p = input_file /\ out = resolved /\ f = output_format
                      /\ validate_format output_format = true
                      /\ from_file env input_file = None).
Proof.
  cbv zeta. unfold directory_created.
  convert_cases env input_file output_format Hc; later_cases;
    cbn [fst snd app In negb orb];
    (split; [|split]); intros;
    repeat match goal with
           | H : _ \/ _ |- _ => destruct H
           | H : False |- _ => destruct H
           | H : @eq event _ _ |- _ => first [discriminate H | inversion H; clear H; subst]
           end;
    repeat split; auto using truthy_nonempty.
Qed.

(** X2: the calls of a run, read in order, are an initial part of one fixed
    sequence: the probe, [os.makedirs] of the directory part of the resolved
    path when it has one, the load of the input, the export to the resolved
    path. No call is repeated or made out of order, and a run that returns
    [True] has made all of them. *)
Theorem convert_audio_calls_in_order
    (env : Env) (input_file output_format : string) (output_file : option string) :
  exists rest : list event,
    planned_calls env input_file output_format output_file
    = (filter is_call (snd (convert_audio env input_file output_format output_file))
       ++ rest)%list
    /\ (fst (convert_audio env input_file output_format output_file) = Ret true ->
        rest = []).
Proof.
  unfold planned_calls.
  convert_cases env input_file output_format Hc; later_cases;
    cbn [fst snd app filter is_call];
    eexists; (split; [reflexivity | intros H; first [discriminate H | reflexivity]]).
Qed.



(** X4: when the engine check has passed and the input is a file, an
    unsupported format ends the run with [False]; two lines are printed, the
    rejected token and the list [mp3, wav, ogg, m4a, flac, aac, wma]; the
    probe is the only call of the run. *)
Theorem convert_audio_unsupported_format
    (env : Env) (input_file output_format : string) (output_file : option string) :
  engine_available env = true ->
  os_path_isfile env input_file = true ->
  validate_format output_format = false ->
  convert_audio env input_file output_format output_file
  = (Ret false,
     (snd (check_ffmpeg env)
      ++ [EvPrint ("Error: Unsupported output format: " ++ output_format);
          EvPrint "Supported formats: mp3, wav, ogg, m4a, flac, aac, wma"])%list)
  /\ filter is_call (snd (convert_audio env input_file output_format output_file))
     = [EvFfmpegVersion].
Proof.
  intros Hav Hfile Hfmt. revert Hav.
  convert_cases env input_file output_format Hc; intros Hav;
    try discriminate Hav; try discriminate Hfile; try discriminate Hfmt;
    split; reflexivity.
Qed.

(** X4 on the token [xyz]. *)
Lemma convert_audio_unsupported_format_witness :
  convert_audio env_ok "a/song.wav" "xyz" (Some "out/x.xyz")
  = (Ret false,
     [EvFfmpegVersion; EvPrint "Error: Unsupported output format: xyz";
      EvPrint "Supported formats: mp3, wav, ogg, m4a, flac, aac, wma"])
  /\ filter is_call (snd (convert_audio env_ok "a/song.wav" "xyz" (Some "out/x.xyz")))
     = [EvFfmpegVersion].
Proof.
  exact (convert_audio_unsupported_format env_ok "a/song.wav" "xyz" (Some "out/x.xyz")
           eq_refl eq_refl eq_refl).
Defined.

(** X5: in a run that reaches the conversion, a failure of the engine ends
    the run with [False], and the last two lines printed are the text and the
    class name of the exception. When the load fails nothing is exported; in
    both cases no line [Successfully saved to: ...] is printed. *)
Theorem convert_audio_engine_failure
    (env : Env) (input_file output_format : string) (output_file : option string)
    (e : exn) :
  engine_available env = true ->
  os_path_isfile env input_file = true ->
  validate_format output_format = true ->
  let resolved := handle_output_path env input_file output_format output_file in
  let r := convert_audio env input_file output_format output_file in
  directory_created env resolved = true ->
  (from_file env input_file = Some e
   \/ (from_file env input_file = None
       /\ export env input_file resolved output_format = Some e)) ->
  fst r = Ret false
  /\ (exists pre, snd r = (pre ++ [EvPrint ("Conversion error: " ++ exn_str e);
                                   EvPrint ("Full error details: " ++ type_name e)])%list)
  /\ (from_file env input_file = Some e ->
      existsb (fun ev => match ev with EvExport _ _ _ => true | _ => false end) (snd r)
      = false)
  /\ existsb (fun ev => match ev with
                        | EvPrint line => String.prefix "Successfully saved to: " line
                        | _ => false
                        end) (snd r) = false.
Proof.
  intros Hav Hfile Hfmt. cbv zeta. unfold directory_created. intros Hdir Hfail.
  revert Hav.
  convert_cases env input_file output_format Hc; intros Hav;
    try discriminate Hav; try discriminate Hfile; try discriminate Hfmt;
    revert Hdir Hfail; later_cases; cbn [negb orb]; intros Hdir Hfail;
    try discriminate Hdir;
    destruct Hfail as [Hl | [Hl He]];
    try discriminate Hl; try discriminate He;
    repeat match goal with
           | H : Some _ = Some _ |- _ => inversion H; clear H; subst
           end;
    cbn [fst snd app];
    (split; [reflexivity|]);
    (split; [match goal with
             | |- exists pre, ?l = _ => exists (removelast (removelast l)); reflexivity
             end|]);
    (split; [intros H; first [discriminate H | reflexivity] | reflexivity]).
Qed.

(** X5 on an input that cannot be decoded and on a disk that is full. *)
Lemma convert_audio_engine_failure_witness :
  (fst (convert_audio env_corrupt_input "a/song.wav" "mp3" None) = Ret false
   /\ existsb (fun ev => match ev with EvExport _ _ _ => true | _ => false end)
        (snd (convert_audio env_corrupt_input "a/song.wav" "mp3" None)) = false)
  /\ (fst (convert_audio env_disk_full "a/song.wav" "mp3" (Some "b/")) = Ret false
      /\ exists pre,
          snd (convert_audio env_disk_full "a/song.wav" "mp3" (Some "b/"))
          = (pre ++ [EvPrint "Conversion error: [Errno 28] No space left on device";
                     EvPrint "Full error details: OSError"])%list).
Proof.
  split.
  - pose proof (convert_audio_engine_failure
                  env_corrupt_input "a/song.wav" "mp3" None
                  (mk_exn (OtherException "CouldntDecodeError")
                     "Decoding failed. ffmpeg returned error code: 1")
                  eq_refl eq_refl eq_refl eq_refl (or_introl eq_refl)) as H.
    exact (conj (proj1 H) (proj1 (proj2 (proj2 H)) eq_refl)).
  - pose proof (convert_audio_engine_failure
                  env_disk_full "a/song.wav" "mp3" (Some "b/")
                  (mk_exn OSError "[Errno 28] No space left on device")
                  eq_refl eq_refl eq_refl eq_refl
                  (or_intror (conj eq_refl eq_refl))) as H.
    exact (conj (proj1 H) (proj1 (proj2 H))).
Defined.



(** X7: with no output path, or with the empty one, no directory is ever
    created, whatever the input path and the format. *)
Theorem convert_audio_absent_output_creates_no_directory
    (env : Env) (input_file output_format : string) :
  existsb is_makedirs (snd (convert_audio env input_file output_format None)) = false
  /\ existsb is_makedirs (snd (convert_audio env input_file output_format (Some "")))
     = false.
Proof.
  assert (H : existsb is_makedirs
                (snd (convert_audio env input_file output_format None)) = false).
  { destruct (existsb is_makedirs
                (snd (convert_audio env input_file output_format None))) eqn:E;
      [|reflexivity].
    apply existsb_exists in E. destruct E as [ev [Hin Hev]].
    destruct ev; try discriminate Hev.
    destruct (proj1 (convert_audio_calls_inv env input_file output_format None)
                _ Hin) as (Hd & Hne & _ & Hfmt).
    exfalso. apply Hne. rewrite Hd. apply dirname_no_sep.
    rewrite handle_output_path_absent.
    apply rfind_app_absent; [apply original_filename_no_sep|].
    apply (rfind_app_absent _ "."); [reflexivity|].
    now apply validate_format_no_sep. }
  split; [exact H|].
  exact H.
Qed.

(** ** The input path of the command line *)


Lemma take_drop (n : nat) (s : string) : Py.take n s ++ Py.drop n s = s.
Proof.
  revert n. induction s as [|a u IH]; intros [|n]; simpl; try reflexivity.
  now rewrite IH.
Qed.

Lemma absent_cons (c a : ascii) (s : string) :
  absent c (String a s) <-> Ascii.eqb a c = false /\ absent c s.
Proof.
  unfold absent. simpl. pose proof (rfind_ge c s) as G.
  destruct (Py.rfind c s <? 0) eqn:E.
  - apply Z.ltb_lt in E. destruct (Ascii.eqb a c); split.
    + discriminate.
    + intros [H _]. discriminate H.
    + intros _. split; [reflexivity | lia].
    + reflexivity.
  - apply Z.ltb_ge in E. split; [lia | intros [_ H]; lia].
Qed.

Lemma absent_replace (a b : ascii) (s : string) :
  Ascii.eqb b a = false -> absent a (Py.replace_char a b s).
Proof.
  intros Hb. induction s as [|c u IH]; simpl; [reflexivity|].
  apply absent_cons. split; [|exact IH].
  destruct (Ascii.eqb c a) eqn:E; assumption.
Qed.

(** X8: [main] replaces the backslashes of the [--input] argument before it
    calls [convert_audio], and [convert_audio] hands the input path on as it
    got it: the path that is loaded, and that the export reads from, holds no
    backslash. *)
Theorem main_loads_input_without_backslash (env : Env) (argv : list string) :
  (forall p, In (EvFromFile p) (snd (main env argv)) -> absent backslash p)
  /\ (forall p out f, In (EvExport p out f) (snd (main env argv)) ->
                      absent backslash p).
Proof.
  unfold main. destruct (Nat.eqb (List.length argv) 1).
  { cbn [snd In]. split; intros; repeat match goal with
                                        | H : _ \/ _ |- _ => destruct H
                                        | H : False |- _ => destruct H
                                        | H : @eq event _ _ |- _ => discriminate H
                                        end. }
  destruct (parse_args env argv) as [input output_format output | status].
  2:{ cbn [snd In]. split; intros; repeat match goal with
                                          | H : _ \/ _ |- _ => destruct H
                                          | H : False |- _ => destruct H
                                          | H : @eq event _ _ |- _ => discriminate H
                                          end. }
  remember (Py.replace_char "\"%char "/"%char input) as input_file eqn:Ei.
  assert (Hin : absent backslash input_file).
  { subst input_file. now apply absent_replace. }
  match goal with
  | |- context [convert_audio ?e ?i ?f ?o] =>
      destruct (convert_audio_calls_inv e i f o) as (_ & Hload & Hexp);
      destruct (convert_audio_total e i f o) as [b Hb];
      destruct (convert_audio e i f o) as [[b'|e'] t]
  end; cbn [fst snd] in *; [|discriminate Hb].
  split.
  - intros p [E | Hev]; [discriminate E|].
    destruct (Hload _ Hev) as (E & _). now rewrite E.
  - intros p out f [E | Hev]; [discriminate E|].
    destruct (Hexp _ _ _ Hev) as (E & _). now rewrite E.
Qed.

(** X8 on a command line with Windows separators: [a\song.wav] is loaded as
    [a/song.wav]. *)
Lemma main_loads_input_without_backslash_witness :
  In (EvFromFile "a/song.wav")
     (snd (main env_ok ["prog"; "--input"; "a\song.wav"; "--output_format"; "wav";
                        "--output"; "c\d\x.wav"]))
  /\ absent backslash "a/song.wav".
Proof.
  assert (H : In (EvFromFile "a/song.wav")
                (snd (main env_ok ["prog"; "--input"; "a\song.wav"; "--output_format";
                                   "wav"; "--output"; "c\d\x.wav"]))).
  { vm_compute. do 5 right. left. reflexivity. }
  exact (conj H (proj1 (main_loads_input_without_backslash _ _) _ H)).
Defined.



(** ** The stem and the extension of the input *)

Lemma append_empty_r (s : string) : s ++ "" = s.
Proof. induction s as [|a s IH]; simpl; [reflexivity | now rewrite IH]. Qed.

(** From the last [c] on, the string starts with [c]. *)
Lemma rfind_drop_starts (c : ascii) (s : string) :
  0 <= Py.rfind c s ->
  Py.startswith c (Py.drop (Z.to_nat (Py.rfind c s)) s) = true.
Proof.
  induction s as [|a u IH]; simpl; [lia|].
  pose proof (rfind_ge c u) as G.
  destruct (Py.rfind c u <? 0) eqn:E.
  - destruct (Ascii.eqb a c) eqn:Eac; [intros _; simpl; exact Eac | lia].
  - apply Z.ltb_ge in E. intros _.
    replace (Z.to_nat (Py.rfind c u + 1)) with (S (Z.to_nat (Py.rfind c u))) by lia.
    simpl. now apply IH.
Qed.

Lemma has_name_before_dot_positive (p : string) (k : Z) (n : nat) :
  PosixPath.has_name_before_dot p k n = true -> (0 < n)%nat.
Proof. destruct n; [discriminate | lia]. Qed.

Lemma take_nonempty (n : nat) (s : string) :
  (0 < n)%nat -> s <> "" -> Py.take n s <> "".
Proof. destruct n, s; simpl; intros; try lia; congruence. Qed.

Lemma len_nonempty (s : string) : 0 < Py.len s -> s <> "".
Proof. intros H E. subst s. unfold Py.len in H. simpl in H. lia. Qed.

(** [os.path.splitext] cuts the path in two; the second part is empty or
    starts with the dot; the first is empty only for the empty path. *)
Lemma splitext_parts (p : string) :
  fst (PosixPath.splitext p) ++ snd (PosixPath.splitext p) = p
  /\ (snd (PosixPath.splitext p) = ""
      \/ Py.startswith PosixPath.extsep (snd (PosixPath.splitext p)) = true)
  /\ (fst (PosixPath.splitext p) = "" <-> p = "").
Proof.
  unfold PosixPath.splitext.
  pose proof (rfind_ge PosixPath.sep p) as Gs.
  pose proof (rfind_lt_len PosixPath.extsep p) as Ld.
  destruct ((Py.rfind PosixPath.extsep p >? Py.rfind PosixPath.sep p)
            && PosixPath.has_name_before_dot p (Py.rfind PosixPath.sep p + 1)
                 (Z.to_nat (Py.rfind PosixPath.extsep p - (Py.rfind PosixPath.sep p + 1))))
    eqn:E; cbn [fst snd].
  - apply andb_true_iff in E. destruct E as [Egt Ename].
    apply Z.gtb_lt in Egt. apply has_name_before_dot_positive in Ename.
    unfold Py.slice_to, Py.slice_from. rewrite clamp_nonneg by lia.
    split; [apply take_drop|]. split.
    + right. apply rfind_drop_starts. lia.
    + split; intros H.
      * exfalso. revert H. apply take_nonempty; [lia|]. apply len_nonempty. lia.
      * subst p. reflexivity.
  - rewrite slice_to_0. split; [apply append_empty_r|].
    split; [left; reflexivity | reflexivity].
Qed.

(** X10: the stem used for the output name is what is left of the base name
    of the input once at most one extension is cut off: stem and extension
    make up the base name, the extension is empty or starts with a dot, the
    stem holds no separator, so no directory of the input enters the name,
    and it is empty only when the base name is. *)
Theorem original_filename_is_basename_without_extension (input_file : string) :
  let name := PosixPath.basename input_file in
  let ext := snd (PosixPath.splitext name) in
  original_filename input_file ++ ext = name
  /\ (ext = "" \/ Py.startswith PosixPath.extsep ext = true)
  /\ absent PosixPath.sep (original_filename input_file)
  /\ (original_filename input_file = "" <-> name = "").
Proof.
  cbv zeta. unfold original_filename.
  destruct (splitext_parts (PosixPath.basename input_file)) as (H1 & H2 & H3).
  repeat split; try assumption; try apply H3.
  apply (original_filename_no_sep input_file).
Qed.

(** X1 on two machines: [ffmpeg.exe] in the working directory makes up for a
    probe that finds no executable; a probe that may not be run raises its
    [PermissionError] to the caller. *)
Lemma check_ffmpeg_outcomes_witness :
  fst (check_ffmpeg env_local_ffmpeg) = Ret true
  /\ fst (check_ffmpeg env_ffmpeg_denied)
     = Raise (mk_exn PermissionError "[Errno 13] Permission denied: 'ffmpeg'").
Proof.
  split.
  - apply (proj1 (check_ffmpeg_outcomes env_local_ffmpeg)).
    right. eexists. repeat split.
  - apply (proj1 (proj2 (check_ffmpeg_outcomes env_ffmpeg_denied))).
    split; reflexivity.
Defined.

(** X11: when the probe raises an exception that [check_ffmpeg] does not
    catch (neither a [SubprocessError] nor a [FileNotFoundError]), the
    catch-all handler of [convert_audio] takes it: the run is the probe
    followed by the line [Unexpected error: <text>], the guidance of
    [check_ffmpeg] is not printed, and the result is [False]. *)
Theorem convert_audio_probe_exception_is_unexpected_error
    (env : Env) (input_file output_format : string) (output_file : option string)
    (e : exn) :
  ffmpeg_version env = Some e ->
  is_SubprocessError e || is_FileNotFoundError e = false ->
  convert_audio env input_file output_format output_file
  = (Ret false, [EvFfmpegVersion; EvPrint ("Unexpected error: " ++ exn_str e)]).
Proof.
  intros Hv Hcatch.
  apply (convert_audio_check_raises env input_file output_format output_file
           e [EvFfmpegVersion]).
  rewrite check_ffmpeg_cases, Hv, Hcatch. reflexivity.
Qed.

(** X11 on the machine where the probe may not be run. *)
Lemma convert_audio_probe_exception_witness :
  convert_audio env_ffmpeg_denied "a/song.wav" "mp3" None
  = (Ret false,
     [EvFfmpegVersion;
      EvPrint "Unexpected error: [Errno 13] Permission denied: 'ffmpeg'"]).
Proof.
  exact (convert_audio_probe_exception_is_unexpected_error
           env_ffmpeg_denied "a/song.wav" "mp3" None _ eq_refl eq_refl).
Defined.
